(** * Airflow excerpt: REST endpoint stubs and the Pub/Sub pull sensor

    A shallow embedding of three Python modules:

    - [airflow/api_connexion/endpoints/variable_endpoint.py]
    - [airflow/api_connexion/endpoints/xcom_endpoint.py]
    - [airflow/providers/google/cloud/sensors/pubsub.py]

    Python code that can raise and that mutates objects is written in a
    state-and-exception monad: a computation takes the current state and
    gives back either a value or the exception it raised, together with the
    state it left behind. *)

From Stdlib Require Import String List ZArith Bool Lia.
Import ListNotations.
Local Open Scope string_scope.
Local Open Scope list_scope.

Set Implicit Arguments.

(** ** Python exceptions and outcomes *)

(** The exceptions that occur in this code. [NotImplementedError] is the only
    one the excerpt raises itself; everything raised by code it calls (the
    hook, a user callback, the base classes) is an [Exception] with the name
    of its class and its message. *)
Inductive exn : Type :=
| NotImplementedError (msg : string)
| Exception (cls : string) (msg : string).

(** How a call ends: it returns a value or it raises. *)
Inductive outcome (A : Type) : Type :=
| Returned (a : A)
| Raised (e : exn).

Arguments Returned {A} a.
Arguments Raised {A} e.

(** ** The monad *)

Module PyM.

Definition M (S A : Type) : Type := S -> outcome A * S.

Definition ret {S A} (a : A) : M S A := fun s => (Returned a, s).

Definition raise {S A} (e : exn) : M S A := fun s => (Raised e, s).

(** Sequencing: when the first statement raises, the rest is skipped and the
    exception goes on to the caller with the state reached so far. *)
Definition bind {S A B} (c : M S A) (k : A -> M S B) : M S B :=
  fun s =>
    match c s with
    | (Returned a, s') => k a s'
    | (Raised e, s') => (Raised e, s')
    end.

Definition get {S} : M S S := fun s => (Returned s, s).

Definition modify {S} (f : S -> S) : M S unit := fun s => (Returned tt, f s).

End PyM.

Import PyM.

Declare Scope py_scope.
Delimit Scope py_scope with py.
Notation "x <- c ;; k" := (bind c (fun x => k))
  (at level 61, c at next level, right associativity) : py_scope.
Notation "c ;;; k" := (bind c (fun _ => k))
  (at level 61, right associativity) : py_scope.
Local Open Scope py_scope.

(** ** The REST endpoint stubs *)

(** [variable_endpoint.py]. Each function declares no parameter and has one
    statement, [raise NotImplementedError("Not implemented yet.")]. A Python
    function may return any object, so the result type is left open. *)
Module variable_endpoint.
Section Stubs.
Context {S A : Type}.

Definition delete_variable : M S A := raise (NotImplementedError "Not implemented yet.").
Definition get_variable : M S A := raise (NotImplementedError "Not implemented yet.").
Definition get_variables : M S A := raise (NotImplementedError "Not implemented yet.").
Definition lookup_variable : M S A := raise (NotImplementedError "Not implemented yet.").
Definition patch_variable : M S A := raise (NotImplementedError "Not implemented yet.").
Definition post_variables : M S A := raise (NotImplementedError "Not implemented yet.").
End Stubs.
End variable_endpoint.

(** [xcom_endpoint.py], written the same way. *)
Module xcom_endpoint.
Section Stubs.
Context {S A : Type}.

Definition delete_xcom_entry : M S A := raise (NotImplementedError "Not implemented yet.").
Definition get_xcom_entry : M S A := raise (NotImplementedError "Not implemented yet.").
Definition get_xcom_entries : M S A := raise (NotImplementedError "Not implemented yet.").
Definition patch_xcom_entry : M S A := raise (NotImplementedError "Not implemented yet.").
Definition post_xcom_entries : M S A := raise (NotImplementedError "Not implemented yet.").
End Stubs.
End xcom_endpoint.

(** The eleven operations of the two modules, by name, and the function each
    name stands for. *)
Inductive endpoint : Type :=
| op_delete_variable | op_get_variable | op_get_variables
| op_lookup_variable | op_patch_variable | op_post_variables
| op_delete_xcom_entry | op_get_xcom_entry | op_get_xcom_entries
| op_patch_xcom_entry | op_post_xcom_entries.

Definition all_endpoints : list endpoint :=
  [ op_delete_variable; op_get_variable; op_get_variables;
    op_lookup_variable; op_patch_variable; op_post_variables;
    op_delete_xcom_entry; op_get_xcom_entry; op_get_xcom_entries;
    op_patch_xcom_entry; op_post_xcom_entries ].

Definition call_endpoint {S A : Type} (op : endpoint) : M S A :=
  match op with
  | op_delete_variable => variable_endpoint.delete_variable
  | op_get_variable => variable_endpoint.get_variable
  | op_get_variables => variable_endpoint.get_variables
  | op_lookup_variable => variable_endpoint.lookup_variable
  | op_patch_variable => variable_endpoint.patch_variable
  | op_post_variables => variable_endpoint.post_variables
  | op_delete_xcom_entry => xcom_endpoint.delete_xcom_entry
  | op_get_xcom_entry => xcom_endpoint.get_xcom_entry
  | op_get_xcom_entries => xcom_endpoint.get_xcom_entries
  | op_patch_xcom_entry => xcom_endpoint.patch_xcom_entry
  | op_post_xcom_entries => xcom_endpoint.post_xcom_entries
  end.

(** ** The Pub/Sub pull sensor ([providers/google/cloud/sensors/pubsub.py]) *)

Module pubsub.

(** [PubSubHook(gcp_conn_id=..., delegate_to=...)]: the hook object [poke]
    builds on every call. It keeps the two connection settings. *)
Record PubSubHook : Type := {
  hook_gcp_conn_id : string;
  hook_delegate_to : option string
}.

(** A warning issued through [warnings.warn(message, category)]. *)
Record Warning : Type := {
  category : string;
  message : string
}.

Section Sensor.

(** What the module imports and does not define: the protobuf message type
    [ReceivedMessage], the dictionaries [MessageToDict] produces, any other
    Python object a callback may hand back, the task [context], the state of
    everything outside the sensor object (the subscription, the network, what a
    callback writes to), the attributes the base classes keep, and the
    arguments [__init__] forwards to them. *)
Context {ReceivedMessage JsonDict Object TaskContext World Base Kwargs : Type}.

(** What a transformation of the pulled messages may return ([Any]): the
    default gives a list of dictionaries. *)
Inductive value : Type :=
| PyNone
| PyDicts (dicts : list JsonDict)
| PyObject (o : Object).

(** [Callable[[List[ReceivedMessage], Dict[str, Any]], Any]]: user code. It is
    handed the list object [pull] returned and the context, not the sensor. It
    may raise, may act on the outside world, and may change the list in place
    (append to it, pop from it, clear it): besides its outcome and the world it
    leaves, a call gives the contents of the list when it ends. *)
Definition Callback : Type :=
  list ReceivedMessage -> TaskContext -> World ->
  outcome value * list ReceivedMessage * World.

(** An object passed as [messages_callback]: what calling it does, and its
    truth value, which [or] tests. A function or a lambda is always true; an
    object whose class defines [__bool__] or [__len__] may be false. *)
Record Callable : Type := {
  is_truthy : bool;
  call : Callback
}.

Definition py_function (f : Callback) : Callable :=
  {| is_truthy := true; call := f |}.

(** The imported code [PubSubPullSensor] runs on.
    - [MessageToDict] is [google.protobuf.json_format.MessageToDict];
    - [pull] and [acknowledge] are the two methods of [PubSubHook] the sensor
      calls, with the keyword arguments of the call sites in their order;
      either may raise;
    - [reschedule] is the [self.reschedule] property the sensor inherits from
      [BaseSensorOperator];
    - [BaseSensorOperator_init] is the call of [super().__init__] with the
      remaining positional and keyword arguments;
    - [wait_for_next_poke] is what the base class does between two pokes
      (time-out check, re-scheduling or sleeping), which may raise. *)
Class Platform : Type := {
  MessageToDict : ReceivedMessage -> JsonDict;
  pull : PubSubHook -> string -> string -> Z -> bool -> World ->
         outcome (list ReceivedMessage) * World;
  acknowledge : PubSubHook -> string -> string -> list ReceivedMessage -> World ->
                outcome unit * World;
  reschedule : Base -> bool;
  BaseSensorOperator_init : Kwargs -> outcome Base;
  wait_for_next_poke : Base -> World -> outcome unit * World
}.

Context {platform : Platform}.

(** The attributes of a [PubSubPullSensor] object. [base] stands for what the
    base classes store. *)
Record PubSubPullSensor : Type := {
  base : Base;
  gcp_conn_id : string;
  delegate_to : option string;
  project_id : string;
  subscription : string;
  max_messages : Z;
  return_immediately : option bool;
  ack_messages : bool;
  messages_callback : option Callable;
  _return_value : value
}.

Definition set__return_value (v : value) (self : PubSubPullSensor) : PubSubPullSensor :=
  {| base := base self;
     gcp_conn_id := gcp_conn_id self;
     delegate_to := delegate_to self;
     project_id := project_id self;
     subscription := subscription self;
     max_messages := max_messages self;
     return_immediately := return_immediately self;
     ack_messages := ack_messages self;
     messages_callback := messages_callback self;
     _return_value := v |}.

(** *** The constructor *)

Definition warn (msg cat : string) : M (list Warning) unit :=
  modify (fun ws => ws ++ [ {| category := cat; message := msg |} ]).

Definition deprecation_message : string :=
  "The project parameter has been deprecated. You should pass the project_id parameter.".

(** [PubSubPullSensor.__init__], lines 94 to 126. The state is the list of
    warnings issued so far, to which [warnings.warn] adds. [if project:] holds
    for a string that is neither [None] nor empty. The arguments are those the
    body receives, after the [apply_defaults] decorator has filled in the
    missing ones. *)
Definition __init__
    (project_id_arg subscription_arg : string) (max_messages_arg : Z)
    (return_immediately_arg : option bool) (ack_messages_arg : bool)
    (gcp_conn_id_arg : string) (delegate_to_arg : option string)
    (project : option string) (messages_callback_arg : option Callable)
    (kwargs : Kwargs) : M (list Warning) PubSubPullSensor :=
  project_id_arg <-
    match project with
    | Some p =>
        if (p =? "")%string then ret project_id_arg
        else warn deprecation_message "DeprecationWarning" ;;; ret p
    | None => ret project_id_arg
    end ;;
  b <- (fun ws => (BaseSensorOperator_init kwargs, ws)) ;;
  ret {| base := b;
         gcp_conn_id := gcp_conn_id_arg;
         delegate_to := delegate_to_arg;
         project_id := project_id_arg;
         subscription := subscription_arg;
         max_messages := max_messages_arg;
         return_immediately := return_immediately_arg;
         ack_messages := ack_messages_arg;
         messages_callback := messages_callback_arg;
         _return_value := PyNone |}.

(** The default values of the optional parameters of [__init__]. *)
Definition default_max_messages : Z := 5.
Definition default_gcp_conn_id : string := "google_cloud_default".

(** *** State of a run *)

(** A call the sensor makes on its hook, with the arguments it passes. *)
Inductive HookCall : Type :=
| pull_call (hook : PubSubHook) (project_id subscription : string)
            (max_messages : Z) (return_immediately : bool)
| acknowledge_call (hook : PubSubHook) (project_id subscription : string)
                   (messages : list ReceivedMessage).

(** What [poke] and [execute] work on: the sensor object, the outside world,
    and the record of the hook calls made so far, oldest first. *)
Record State : Type := {
  self : PubSubPullSensor;
  world : World;
  hook_calls : list HookCall
}.

Definition get_self : M State PubSubPullSensor :=
  fun s => (Returned (self s), s).

Definition set_world (w : World) (s : State) : State :=
  {| self := self s; world := w; hook_calls := hook_calls s |}.

Definition record_call (c : HookCall) (s : State) : State :=
  {| self := self s; world := world s; hook_calls := hook_calls s ++ [c] |}.

(** Running imported code that acts on the outside world. *)
Definition on_world {A : Type} (f : World -> outcome A * World) : M State A :=
  fun s => let (r, w) := f (world s) in (r, set_world w s).

(** [hook.pull(project_id=..., subscription=..., max_messages=...,
    return_immediately=...)]: the call is recorded, then made. *)
Definition hook_pull (hook : PubSubHook) (project_id subscription : string)
    (max_messages : Z) (return_immediately : bool) : M State (list ReceivedMessage) :=
  modify (record_call (pull_call hook project_id subscription max_messages return_immediately)) ;;;
  on_world (pull hook project_id subscription max_messages return_immediately).

(** [hook.acknowledge(project_id=..., subscription=..., messages=...)]. *)
Definition hook_acknowledge (hook : PubSubHook) (project_id subscription : string)
    (messages : list ReceivedMessage) : M State unit :=
  modify (record_call (acknowledge_call hook project_id subscription messages)) ;;;
  on_world (acknowledge hook project_id subscription messages).

(** [self._return_value = v]. *)
Definition store_return_value (v : value) : M State unit :=
  modify (fun s => {| self := set__return_value v (self s);
                      world := world s;
                      hook_calls := hook_calls s |}).

(** Truth value of a list: [bool(l)]. *)
Definition bool_of_list {A : Type} (l : list A) : bool :=
  match l with
  | [] => false
  | _ :: _ => true
  end.

(** *** The methods *)

(** [_default_message_callback], lines 163 to 183. *)
Definition _default_message_callback
    (pulled_messages : list ReceivedMessage) (context : TaskContext) : list JsonDict :=
  let messages_json := map MessageToDict pulled_messages in
  messages_json.

(** The bound method [self._default_message_callback] as something to call:
    it returns the dictionaries, and leaves the list and the world alone. *)
Definition default_handler : Callback :=
  fun pulled_messages context w =>
    (Returned (PyDicts (_default_message_callback pulled_messages context)),
     pulled_messages, w).

(** [self.messages_callback or self._default_message_callback], line 150:
    the callback when there is one and it is true, the default otherwise. *)
Definition handle_messages_of (sensor : PubSubPullSensor) : Callback :=
  match messages_callback sensor with
  | Some callback => if is_truthy callback then call callback else default_handler
  | None => default_handler
  end.

(** [handle_messages(pulled_messages, context)], line 152. The value is what
    the call returns; the list is [pulled_messages] as the call leaves it,
    which is what the lines after it read. *)
Definition call_handler (handle_messages : Callback)
    (pulled_messages : list ReceivedMessage) (context : TaskContext)
    : M State (value * list ReceivedMessage) :=
  fun s =>
    match handle_messages pulled_messages context (world s) with
    | (Returned v, pulled_messages, w) => (Returned (v, pulled_messages), set_world w s)
    | (Raised e, _, w) => (Raised e, set_world w s)
    end.

(** [poke], lines 133 to 161. *)
Definition poke (context : TaskContext) : M State bool :=
  sensor <- get_self ;;
  let hook := {| hook_gcp_conn_id := gcp_conn_id sensor;
                 hook_delegate_to := delegate_to sensor |} in
  let return_immediately :=
    match return_immediately sensor with
    | Some flag => flag
    | None => reschedule (base sensor)
    end in
  pulled_messages <-
    hook_pull hook (project_id sensor) (subscription sensor) (max_messages sensor)
              return_immediately ;;
  sensor <- get_self ;;
  let handle_messages := handle_messages_of sensor in
  handled <- call_handler handle_messages pulled_messages context ;;
  let pulled_messages := snd handled in
  store_return_value (fst handled) ;;;
  sensor <- get_self ;;
  (if bool_of_list pulled_messages && ack_messages sensor
   then hook_acknowledge hook (project_id sensor) (subscription sensor) pulled_messages
   else ret tt) ;;;
  ret (bool_of_list pulled_messages).

(** Modelled from the spec: [BaseSensorOperator.execute], the inherited sensing
    loop, is not part of the excerpt. The spec describes a sensor as a task
    that repeatedly checks an external condition until it is satisfied, with
    the waiting between two checks left to the platform. The loop calls the
    [poke] of the object it runs on (here passed as [poke_method]) until it
    returns [True]; an exception from [poke] or from the platform ends it.
    [fuel] bounds the number of pokes; [None] means the bound was reached. *)
Fixpoint BaseSensorOperator_execute
    (poke_method : TaskContext -> M State bool) (fuel : nat)
    (context : TaskContext) (s : State) : option (outcome unit * State) :=
  match fuel with
  | O => None
  | S fuel' =>
      match poke_method context s with
      | (Raised e, s1) => Some (Raised e, s1)
      | (Returned true, s1) => Some (Returned tt, s1)
      | (Returned false, s1) =>
          match wait_for_next_poke (base (self s1)) (world s1) with
          | (Raised e, w) => Some (Raised e, set_world w s1)
          | (Returned _, w) =>
              BaseSensorOperator_execute poke_method fuel' context (set_world w s1)
          end
      end
  end.

(** [execute], lines 128 to 131. *)
Definition execute (fuel : nat) (context : TaskContext) (s : State)
    : option (outcome value * State) :=
  match BaseSensorOperator_execute poke fuel context s with
  | None => None
  | Some (Raised e, s1) => Some (Raised e, s1)
  | Some (Returned _, s1) => Some (Returned (_return_value (self s1)), s1)
  end.

(** The hook calls made by one [poke] started in [s]. *)
Definition issued (context : TaskContext) (s : State) : list HookCall :=
  skipn (length (hook_calls s)) (hook_calls (snd (poke context s))).

Definition is_pull (c : HookCall) : bool :=
  match c with
  | pull_call _ _ _ _ _ => true
  | acknowledge_call _ _ _ _ => false
  end.

Definition is_acknowledge (c : HookCall) : bool := negb (is_pull c).

(** Whether that [poke] called [hook.acknowledge]. *)
Definition acknowledge_called (context : TaskContext) (s : State) : bool :=
  existsb is_acknowledge (issued context s).

(** *** Vocabulary for the statements about [poke] *)

(** The hook a sensor builds, and the two requests it can make with it. *)
Definition hook_of (sensor : PubSubPullSensor) : PubSubHook :=
  {| hook_gcp_conn_id := gcp_conn_id sensor;
     hook_delegate_to := delegate_to sensor |}.

Definition pull_request (sensor : PubSubPullSensor) (flag : bool) : HookCall :=
  pull_call (hook_of sensor) (project_id sensor) (subscription sensor)
            (max_messages sensor) flag.

Definition acknowledge_request (sensor : PubSubPullSensor)
    (messages : list ReceivedMessage) : HookCall :=
  acknowledge_call (hook_of sensor) (project_id sensor) (subscription sensor) messages.

(** The answer of the service to the pull of a sensor, and to its
    acknowledgement. *)
Definition pull_answer (sensor : PubSubPullSensor) (flag : bool) (w : World)
    : outcome (list ReceivedMessage) * World :=
  pull (hook_of sensor) (project_id sensor) (subscription sensor)
       (max_messages sensor) flag w.

Definition acknowledge_answer (sensor : PubSubPullSensor)
    (messages : list ReceivedMessage) (w : World) : outcome unit * World :=
  acknowledge (hook_of sensor) (project_id sensor) (subscription sensor) messages w.

(** The flag line 139 to 141 settle on. *)
Definition flag_of (sensor : PubSubPullSensor) : bool :=
  match return_immediately sensor with
  | Some flag => flag
  | None => reschedule (base sensor)
  end.

(** A sensor with [_return_value] reset: what is left are the attributes
    that [__init__] sets from its arguments and that [poke] only reads. *)
Definition settings (sensor : PubSubPullSensor) : PubSubPullSensor :=
  set__return_value PyNone sensor.

(** Whether line 150 settles on the default transformation: no
    [messages_callback], or one that is false. *)
Definition uses_default (sensor : PubSubPullSensor) : bool :=
  match messages_callback sensor with
  | Some callback => negb (is_truthy callback)
  | None => true
  end.

(** The same run with another [messages_callback] (or none). *)
Definition with_messages_callback (callback : option Callable) (s : State) : State :=
  {| self := {| base := base (self s);
                gcp_conn_id := gcp_conn_id (self s);
                delegate_to := delegate_to (self s);
                project_id := project_id (self s);
                subscription := subscription (self s);
                max_messages := max_messages (self s);
                return_immediately := return_immediately (self s);
                ack_messages := ack_messages (self s);
                messages_callback := callback;
                _return_value := _return_value (self s) |};
     world := world s;
     hook_calls := hook_calls s |}.


(** The four ways through [poke], by where it stops: the pull raises, the
    transformation raises, the run ends without acknowledging, or the
    acknowledgement is made (and returns or raises). [msgs] is the list as
    [pull] returned it, [left] the same list as the transformation left it.
    Each way carries the outcome and the state [poke] leaves. *)
Inductive poke_run (context : TaskContext) (s : State) : outcome bool -> State -> Prop :=
| pull_raised e w1 :
    pull_answer (self s) (flag_of (self s)) (world s) = (Raised e, w1) ->
    poke_run context s (Raised e)
      {| self := self s; world := w1;
         hook_calls := hook_calls s ++ [pull_request (self s) (flag_of (self s))] |}
| transformation_raised msgs w1 e left w2 :
    pull_answer (self s) (flag_of (self s)) (world s) = (Returned msgs, w1) ->
    handle_messages_of (self s) msgs context w1 = (Raised e, left, w2) ->
    poke_run context s (Raised e)
      {| self := self s; world := w2;
         hook_calls := hook_calls s ++ [pull_request (self s) (flag_of (self s))] |}
| not_acknowledged msgs w1 v left w2 :
    pull_answer (self s) (flag_of (self s)) (world s) = (Returned msgs, w1) ->
    handle_messages_of (self s) msgs context w1 = (Returned v, left, w2) ->
    bool_of_list left && ack_messages (self s) = false ->
    poke_run context s (Returned (bool_of_list left))
      {| self := set__return_value v (self s); world := w2;
         hook_calls := hook_calls s ++ [pull_request (self s) (flag_of (self s))] |}
| acknowledged msgs w1 v left w2 r w3 :
    pull_answer (self s) (flag_of (self s)) (world s) = (Returned msgs, w1) ->
    handle_messages_of (self s) msgs context w1 = (Returned v, left, w2) ->
    bool_of_list left && ack_messages (self s) = true ->
    acknowledge_answer (self s) left w2 = (r, w3) ->
    poke_run context s
      (match r with Returned _ => Returned (bool_of_list left) | Raised e => Raised e end)
      {| self := set__return_value v (self s); world := w3;
         hook_calls := hook_calls s ++ [pull_request (self s) (flag_of (self s));
                                        acknowledge_request (self s) left] |}.

End Sensor.

Arguments value : clear implicits.
Arguments Callback : clear implicits.
Arguments Callable : clear implicits.
Arguments Platform : clear implicits.
Arguments PubSubPullSensor : clear implicits.
Arguments HookCall : clear implicits.
Arguments State : clear implicits.

End pubsub.

(** ** A test double of the platform

    A small, fully computable stand-in for the imported code, in the manner of
    a mocked hook. Messages are their acknowledgement ids; the world holds the
    scripted answers of the coming pulls, the ids acknowledged so far, and
    whether acknowledging is refused. *)

Module mock.
Import pubsub.

Record MockWorld : Type := {
  answers : list (outcome (list string));
  acked : list string;
  ack_refused : bool
}.

Definition mock_MessageToDict (m : string) : list (string * string) :=
  [("ackId", m)].

(** Every pull consumes one scripted answer, cut to [max_messages]; when the
    script is over the subscription is empty. *)
Definition mock_pull (hook : PubSubHook) (project_id subscription : string)
    (max_messages : Z) (return_immediately : bool) (w : MockWorld)
    : outcome (list string) * MockWorld :=
  match answers w with
  | [] => (Returned [], w)
  | Returned msgs :: rest =>
      (Returned (firstn (Z.to_nat max_messages) msgs),
       {| answers := rest; acked := acked w; ack_refused := ack_refused w |})
  | Raised e :: rest =>
      (Raised e, {| answers := rest; acked := acked w; ack_refused := ack_refused w |})
  end.

Definition mock_acknowledge (hook : PubSubHook) (project_id subscription : string)
    (messages : list string) (w : MockWorld) : outcome unit * MockWorld :=
  if ack_refused w
  then (Raised (Exception "Forbidden" "403 permission denied"), w)
  else (Returned tt,
        {| answers := answers w; acked := acked w ++ messages; ack_refused := false |}).

(** The base class keeps the mode; only the two valid modes are accepted. *)
Definition mock_init (mode : string) : outcome bool :=
  if (mode =? "poke")%string then Returned false
  else if (mode =? "reschedule")%string then Returned true
  else Raised (Exception "AirflowException" "The mode must be one of ['poke', 'reschedule']").

(** Between two pokes: a re-scheduling sensor gives up its slot, a poking one
    sleeps. *)
Definition mock_wait (rescheduling : bool) (w : MockWorld) : outcome unit * MockWorld :=
  if rescheduling
  then (Raised (Exception "AirflowRescheduleException" ""), w)
  else (Returned tt, w).

#[export] Instance mock_platform
    : Platform string (list (string * string)) MockWorld bool string := {
  MessageToDict := mock_MessageToDict;
  pull := mock_pull;
  acknowledge := mock_acknowledge;
  reschedule := fun b => b;
  BaseSensorOperator_init := mock_init;
  wait_for_next_poke := mock_wait
}.

Definition MockCallback : Type :=
  Callback string (list (string * string)) string unit MockWorld.

Definition MockCallable : Type :=
  Callable string (list (string * string)) string unit MockWorld.

(** A callback in the style of [lambda msgs, context: msgs[0]]: it hands
    back the first message and raises [IndexError] on an empty list. *)
Definition first_message : MockCallback :=
  fun pulled_messages _ w =>
    match pulled_messages with
    | [] => (Raised (Exception "IndexError" "list index out of range"), [], w)
    | m :: _ => (Returned (PyObject m), pulled_messages, w)
    end.

(** A callback that counts the messages, one star for each. *)
Definition stars (pulled_messages : list string) : string :=
  String.concat "" (map (fun _ => "*") pulled_messages).

Definition count_messages : MockCallback :=
  fun pulled_messages _ w => (Returned (PyObject (stars pulled_messages)), pulled_messages, w).

(** A callback that accepts no payload at all. *)
Definition refuse_messages : MockCallback :=
  fun pulled_messages _ w =>
    (Raised (Exception "ValueError" "unexpected payload"), pulled_messages, w).

(** [lambda msgs, context: msgs.pop()]: it takes the last message off the
    list and hands it back. *)
Definition pop_last : MockCallback :=
  fun pulled_messages _ w =>
    match rev pulled_messages with
    | [] => (Raised (Exception "IndexError" "pop from empty list"), [], w)
    | m :: others => (Returned (PyObject m), rev others, w)
    end.

(** A callback that counts the messages and then clears the list. *)
Definition drain_messages : MockCallback :=
  fun pulled_messages _ w => (Returned (PyObject (stars pulled_messages)), [], w).

(** A callback that appends a message of its own to the list. *)
Definition inject_message : MockCallback :=
  fun pulled_messages _ w => (Returned PyNone, pulled_messages ++ ["late"], w).


Definition MockSensor : Type :=
  PubSubPullSensor string (list (string * string)) string unit MockWorld bool.

Definition MockState : Type :=
  State string (list (string * string)) string unit MockWorld bool.

(** A sensor as the constructor leaves it, for mode, acknowledge flag and
    callback of choice. *)
Definition sensor_of (rescheduling ack : bool) (ri : option bool)
    (callback : option MockCallable) : MockSensor :=
  {| base := rescheduling;
     gcp_conn_id := default_gcp_conn_id;
     delegate_to := None;
     project_id := "my-project";
     subscription := "my-subscription";
     max_messages := default_max_messages;
     return_immediately := ri;
     ack_messages := ack;
     messages_callback := callback;
     _return_value := PyNone |}.

Definition world_of (script : list (outcome (list string))) (refused : bool) : MockWorld :=
  {| answers := script; acked := []; ack_refused := refused |}.

Definition start (sensor : MockSensor) (w : MockWorld) : MockState :=
  {| self := sensor; world := w; hook_calls := [] |}.

(** *** Scenarios *)

(** An empty subscription, default transformation, acknowledging sensor. *)
Definition nothing_to_pull : MockState :=
  start (sensor_of true true None None) (world_of [] false).

(** An empty subscription and a callback that reads the first message. *)
Definition nothing_to_pull_first_message : MockState :=
  start (sensor_of false false None (Some (py_function first_message)))
        (world_of [Returned []] false).

(** An empty subscription, an acknowledging sensor and a callback that puts
    a message of its own into the list. *)
Definition nothing_to_pull_injected : MockState :=
  start (sensor_of false true None (Some (py_function inject_message)))
        (world_of [Returned []] false).

(** Two messages waiting, default transformation, acknowledging sensor. *)
Definition two_messages : MockState :=
  start (sensor_of false true None None) (world_of [Returned ["a"; "b"]] false).

(** One message waiting, an acknowledging sensor whose callback raises. *)
Definition one_message_refused : MockState :=
  start (sensor_of false true None (Some (py_function refuse_messages)))
        (world_of [Returned ["a"]] false).

(** Two messages waiting, a counting callback, no acknowledgement asked. *)
Definition two_messages_counted : MockState :=
  start (sensor_of false false (Some true) (Some (py_function count_messages)))
        (world_of [Returned ["a"; "b"]] false).

(** Two messages waiting, an acknowledging sensor whose callback pops the
    last message off the list. *)
Definition two_messages_popped : MockState :=
  start (sensor_of false true None (Some (py_function pop_last)))
        (world_of [Returned ["a"; "b"]] false).

(** Two messages waiting, an acknowledging sensor whose callback clears the
    list. *)
Definition two_messages_drained : MockState :=
  start (sensor_of false true None (Some (py_function drain_messages)))
        (world_of [Returned ["a"; "b"]] false).


(** The service is down at the first pull. *)
Definition service_down : MockState :=
  start (sensor_of false true None None)
        (world_of [Raised (Exception "ServiceUnavailable" "503"); Returned ["a"]] false).

(** One message waiting, acknowledging refused by the service. *)
Definition acknowledge_forbidden : MockState :=
  start (sensor_of false true None None) (world_of [Returned ["a"]] true).

(** Nothing at the first pull, one message at the second, with a sensor that
    blocks in place. *)
Definition second_pull_delivers : MockState :=
  start (sensor_of false true None (Some (py_function count_messages)))
        (world_of [Returned []; Returned ["x"]] false).

(** The state that scenario is expected to end in: the count of the one
    message stored, the message acknowledged, two pulls and one
    acknowledgement on record. *)
Definition message_delivered : MockState :=
  {| self := set__return_value (PyObject "*") (self second_pull_delivers);
     world := {| answers := []; acked := ["x"]; ack_refused := false |};
     hook_calls :=
       [ pull_request (self second_pull_delivers) false;
         pull_request (self second_pull_delivers) false;
         acknowledge_request (self second_pull_delivers) ["x"] ] |}.


End mock.

(** * Properties *)

(** ** The endpoint stubs *)

Lemma all_endpoints_complete (op : endpoint) : In op all_endpoints.
Proof. destruct op; simpl; tauto. Qed.

(** C1. Whichever of the eleven endpoint functions is called, and in
    whatever state, the call raises [NotImplementedError] and leaves the state
    as it found it; the outcome does not depend on the state either. The
    functions declare no parameter, so the state is all a call can see. *)
Theorem endpoint_stubs_not_implemented (S A : Type) (op : endpoint) (s : S) :
  @call_endpoint S A op s = (Raised (NotImplementedError "Not implemented yet."), s) /\
  (forall s' : S, fst (@call_endpoint S A op s') = fst (@call_endpoint S A op s)) /\
  In op all_endpoints.
Proof.
  split; [| split; [| apply all_endpoints_complete]].
  - destruct op; reflexivity.
  - intros s'. destruct op; reflexivity.
Qed.

(** ** The sensor *)

Section SensorFacts.
Import pubsub.

Context {ReceivedMessage JsonDict Object TaskContext World Base Kwargs : Type}.
Context {platform : Platform ReceivedMessage JsonDict World Base Kwargs}.

Local Abbreviation Sensor := (PubSubPullSensor ReceivedMessage JsonDict Object TaskContext World Base).
Local Abbreviation St := (State ReceivedMessage JsonDict Object TaskContext World Base).

Implicit Types (s : St) (context : TaskContext) (msgs left : list ReceivedMessage).

(** Every [poke] takes one of the four ways of [poke_run]. *)
Lemma poke_runs context s :
  poke_run context s (fst (poke context s)) (snd (poke context s)).
Proof.
  cbv beta delta [poke bind get_self hook_pull hook_acknowledge store_return_value
    call_handler on_world modify ret record_call set_world].
  cbn [self world hook_calls].
  destruct (pull _ _ _ _ _ (world s)) as [[msgs | e] w1] eqn:Hpull; cbn.
  - destruct (handle_messages_of (self s) msgs context w1) as [[[v | e] left] w2] eqn:Hcb; cbn.
    + change (ack_messages (set__return_value v (self s))) with (ack_messages (self s)).
      change (project_id (set__return_value v (self s))) with (project_id (self s)).
      change (subscription (set__return_value v (self s))) with (subscription (self s)).
      destruct (bool_of_list left && ack_messages (self s)) eqn:Hack; cbn.
      * destruct (acknowledge _ _ _ left w2) as [r w3] eqn:Hans; cbn.
        pose proof (acknowledged context s Hpull Hcb Hack Hans) as R.
        rewrite <- app_assoc. destruct r as [[] | e]; exact R.
      * now apply not_acknowledged with (msgs := msgs) (w1 := w1).
    + now apply transformation_raised with (msgs := msgs) (w1 := w1) (left := left).
  - now apply pull_raised.
Qed.

(** The record of hook calls only grows, and [issued] is what was added. *)
Lemma skipn_length_app {A : Type} (l r : list A) : skipn (length l) (l ++ r) = r.
Proof. induction l as [| a l IH]; [destruct r; reflexivity | exact IH]. Qed.

Lemma poke_run_issued context s r s' :
  poke_run context s r s' ->
  exists calls,
    hook_calls s' = hook_calls s ++ calls /\
    skipn (length (hook_calls s)) (hook_calls s') = calls /\
    (calls = [pull_request (self s) (flag_of (self s))] \/
     exists left, calls = [pull_request (self s) (flag_of (self s));
                           acknowledge_request (self s) left]).
Proof.
  intros R; destruct R; cbn [hook_calls]; eexists; (split; [reflexivity |]);
    (split; [apply skipn_length_app |]); eauto.
Qed.

Lemma hook_calls_grow context s :
  hook_calls (snd (poke context s)) = hook_calls s ++ issued context s.
Proof.
  destruct (poke_run_issued (poke_runs context s)) as (calls & Hall & Hskip & _).
  unfold issued. now rewrite Hskip.
Qed.

(** Case analysis on a [poke]: [fst (poke context s)], [snd (poke context s)]
    and [issued context s] are replaced by what each way gives. *)
Ltac poke_cases :=
  unfold acknowledge_called, issued;
  match goal with
  | |- context [poke ?c ?s] => destruct (poke_runs c s)
  end;
  cbn [self world hook_calls _return_value set__return_value];
  rewrite ?skipn_length_app.

(** The same with names for what each way brings, and with the goal's
    hypotheses on the pull and the transformation used up. *)
Ltac poke_ways :=
  unfold acknowledge_called, issued;
  match goal with
  | |- context [poke ?c ?s] =>
      destruct (poke_runs c s)
        as [e_ w1_ Hp_ | msgs_ w1_ e_ left_ w2_ Hp_ Hc_
            | msgs_ w1_ v_ left_ w2_ Hp_ Hc_ Ha_
            | msgs_ w1_ v_ left_ w2_ r_ w3_ Hp_ Hc_ Ha_ Hk_]
  end;
  cbn [self world hook_calls _return_value set__return_value fst snd];
  rewrite ?skipn_length_app.

(** The line-150 choice when it falls on the default. *)
Lemma uses_default_handler (sensor : Sensor) :
  uses_default sensor = true -> handle_messages_of sensor = default_handler.
Proof.
  unfold uses_default, handle_messages_of.
  destruct (messages_callback sensor) as [callback |]; [| reflexivity].
  destruct (is_truthy callback); [discriminate | reflexivity].
Qed.

(** The pull requests among the calls of one [poke]. *)
Lemma issued_pulls context s :
  filter is_pull (issued context s) = [pull_request (self s) (flag_of (self s))].
Proof. poke_cases; reflexivity. Qed.

Lemma issued_starts_with_pull context s :
  hd_error (issued context s) = Some (pull_request (self s) (flag_of (self s))).
Proof. poke_cases; reflexivity. Qed.

(** C5. Every [poke] makes exactly one pull request, the first call on its
    hook, with the sensor's [project_id], [subscription] and [max_messages] and
    the flag settled from [return_immediately]; it makes no other. *)
Theorem poke_pulls_exactly_once context s :
  filter is_pull (issued context s) =
    [pull_call {| hook_gcp_conn_id := gcp_conn_id (self s);
                  hook_delegate_to := delegate_to (self s) |}
               (project_id (self s)) (subscription (self s)) (max_messages (self s))
               (flag_of (self s))] /\
  hd_error (issued context s) = hd_error (filter is_pull (issued context s)) /\
  hook_calls (snd (poke context s)) = hook_calls s ++ issued context s.
Proof.
  rewrite issued_pulls, issued_starts_with_pull.
  repeat split. apply hook_calls_grow.
Qed.

(** C4. When [return_immediately] is [None] the pull request carries the
    sensor's [reschedule] flag (true for a sensor that waits by being
    re-scheduled, false for one that blocks in place); an explicit [True] or
    [False] is passed on as it is. *)
Theorem poke_return_immediately_flag context s :
  (return_immediately (self s) = None ->
   filter is_pull (issued context s) =
     [pull_request (self s) (reschedule (base (self s)))]) /\
  (forall flag : bool,
     return_immediately (self s) = Some flag ->
     filter is_pull (issued context s) = [pull_request (self s) flag]).
Proof.
  pose proof (issued_pulls context s) as Hpull.
  unfold flag_of in Hpull.
  split; [intros Hnone | intros flag Hflag]; rewrite Hpull.
  - now rewrite Hnone.
  - now rewrite Hflag.
Qed.

(** C7. An exception raised by [hook.pull] or by [hook.acknowledge] is the
    outcome of [poke]. After a failed pull nothing but that one call has
    happened: the sensor object is as it was and the world is as the call left
    it. After a failed acknowledgement the hook has been called exactly twice,
    once for each operation: nothing is attempted again. The acknowledgement
    is that of the list as the transformation left it. *)
Theorem poke_propagates_hook_exceptions context s :
  (forall e w1,
     pull_answer (self s) (flag_of (self s)) (world s) = (Raised e, w1) ->
     poke context s =
       (Raised e,
        {| self := self s; world := w1;
           hook_calls := hook_calls s ++ [pull_request (self s) (flag_of (self s))] |})) /\
  (forall msgs w1 v left w2 e w3,
     pull_answer (self s) (flag_of (self s)) (world s) = (Returned msgs, w1) ->
     handle_messages_of (self s) msgs context w1 = (Returned v, left, w2) ->
     bool_of_list left && ack_messages (self s) = true ->
     acknowledge_answer (self s) left w2 = (Raised e, w3) ->
     poke context s =
       (Raised e,
        {| self := set__return_value v (self s); world := w3;
           hook_calls := hook_calls s ++ [pull_request (self s) (flag_of (self s));
                                          acknowledge_request (self s) left] |})).
Proof.
  split.
  - intros e w1 Hpull.
    rewrite (surjective_pairing (poke context s)).
    poke_ways; rewrite Hpull in Hp_; inversion Hp_; subst; reflexivity.
  - intros msgs w1 v left w2 e w3 Hpull Hcb Hack Hans.
    rewrite (surjective_pairing (poke context s)).
    poke_ways;
      rewrite Hpull in Hp_; inversion Hp_; subst;
      rewrite Hcb in Hc_; inversion Hc_; subst.
    + congruence.
    + rewrite Hans in Hk_. inversion Hk_; subst. reflexivity.
Qed.

(** An acknowledgement among the calls of a [poke] tells how the run went. *)
Lemma issued_acknowledge_inv context s hook p sub messages :
  In (acknowledge_call hook p sub messages) (issued context s) ->
  exists msgs w1 v w2,
    pull_answer (self s) (flag_of (self s)) (world s) = (Returned msgs, w1) /\
    handle_messages_of (self s) msgs context w1 = (Returned v, messages, w2) /\
    _return_value (self (snd (poke context s))) = v /\
    world (snd (poke context s)) = snd (acknowledge_answer (self s) messages w2) /\
    issued context s = [pull_request (self s) (flag_of (self s));
                        acknowledge_call hook p sub messages] /\
    acknowledge_call hook p sub messages = acknowledge_request (self s) messages /\
    messages <> [] /\
    ack_messages (self s) = true.
Proof.
  poke_ways; cbn [In]; intros Hin.
  1-3: destruct Hin as [Hin | []]; discriminate Hin.
  destruct Hin as [Hin | [Hin | []]]; [discriminate Hin |].
  unfold acknowledge_request in Hin. inversion Hin; subst.
  apply andb_prop in Ha_ as [Hb Hflag].
  exists msgs_, w1_, v_, w2_. repeat split; try assumption.
  - now rewrite Hk_.
  - intros ->. discriminate Hb.
Qed.

(** C2 (amended). When the pull returns an empty list and the transformation
    returns without putting anything into the list, as the default one always
    does, [poke] returns [False] and [hook.acknowledge] is not called,
    whatever [ack_messages] is: the pull is the only call. When the
    transformation raises, [poke] raises that exception and does not
    acknowledge either. In general an acknowledgement is made exactly when the
    list the transformation leaves is not empty and [ack_messages] is set. *)
Theorem poke_nothing_pulled context s w1 :
  pull_answer (self s) (flag_of (self s)) (world s) = (Returned [], w1) ->
  (uses_default (self s) = true ->
   fst (poke context s) = Returned false /\
   acknowledge_called context s = false /\
   issued context s = [pull_request (self s) (flag_of (self s))]) /\
  (forall v w2,
     handle_messages_of (self s) [] context w1 = (Returned v, [], w2) ->
     fst (poke context s) = Returned false /\
     acknowledge_called context s = false /\
     issued context s = [pull_request (self s) (flag_of (self s))]) /\
  (forall e left w2,
     handle_messages_of (self s) [] context w1 = (Raised e, left, w2) ->
     fst (poke context s) = Raised e /\
     acknowledge_called context s = false) /\
  (forall v left w2,
     handle_messages_of (self s) [] context w1 = (Returned v, left, w2) ->
     acknowledge_called context s = bool_of_list left && ack_messages (self s)).
Proof.
  intros Hpull.
  assert (Hempty : forall v w2,
             handle_messages_of (self s) [] context w1 = (Returned v, [], w2) ->
             fst (poke context s) = Returned false /\
             acknowledge_called context s = false /\
             issued context s = [pull_request (self s) (flag_of (self s))]).
  { intros v w2 Hcb. poke_ways;
      rewrite Hpull in Hp_; inversion Hp_; subst;
      rewrite Hcb in Hc_; inversion Hc_; subst.
    - repeat split.
    - discriminate Ha_. }
  split; [| split; [exact Hempty | split]].
  - intros Hdef. apply (Hempty (PyDicts []) w1).
    now rewrite (uses_default_handler _ Hdef).
  - intros e left w2 Hcb. poke_ways;
      rewrite Hpull in Hp_; inversion Hp_; subst;
      rewrite Hcb in Hc_; inversion Hc_; subst.
    repeat split.
  - intros v left w2 Hcb. poke_ways;
      rewrite Hpull in Hp_; inversion Hp_; subst;
      rewrite Hcb in Hc_; inversion Hc_; subst;
      cbn [existsb is_acknowledge is_pull negb orb pull_request acknowledge_request];
      congruence.
Qed.

(** C3 (amended). For a non-empty list of [n] pulled messages the default
    transformation gives [n] dictionaries, [MessageToDict] of each message in
    the order pulled. Within [poke], [hook.acknowledge] is called only when
    [ack_messages] is set; it is called exactly when [ack_messages] is set
    provided the transformation returns and leaves the list non-empty, which
    the default one always does, and then with the list as left, right after
    the pull. When a [messages_callback] raises or empties the list, no
    acknowledgement is made. *)
Theorem poke_messages_pulled context s msgs w1 :
  msgs <> [] ->
  pull_answer (self s) (flag_of (self s)) (world s) = (Returned msgs, w1) ->
  (length (_default_message_callback msgs context) = length msgs /\
   forall i, nth_error (_default_message_callback msgs context) i =
             option_map MessageToDict (nth_error msgs i)) /\
  (acknowledge_called context s = true -> ack_messages (self s) = true) /\
  (forall v left w2,
     handle_messages_of (self s) msgs context w1 = (Returned v, left, w2) ->
     acknowledge_called context s = bool_of_list left && ack_messages (self s) /\
     (left <> [] -> acknowledge_called context s = ack_messages (self s)) /\
     (left <> [] -> ack_messages (self s) = true ->
      issued context s = [pull_request (self s) (flag_of (self s));
                          acknowledge_request (self s) left])) /\
  (uses_default (self s) = true ->
   acknowledge_called context s = ack_messages (self s) /\
   (ack_messages (self s) = true ->
    issued context s = [pull_request (self s) (flag_of (self s));
                        acknowledge_request (self s) msgs])) /\
  (forall e left w2,
     handle_messages_of (self s) msgs context w1 = (Raised e, left, w2) ->
     acknowledge_called context s = false).
Proof.
  intros Hne Hpull.
  assert (Hret : forall v left w2,
             handle_messages_of (self s) msgs context w1 = (Returned v, left, w2) ->
             acknowledge_called context s = bool_of_list left && ack_messages (self s) /\
             (left <> [] -> acknowledge_called context s = ack_messages (self s)) /\
             (left <> [] -> ack_messages (self s) = true ->
              issued context s = [pull_request (self s) (flag_of (self s));
                                  acknowledge_request (self s) left])).
  { intros v left w2 Hcb.
    assert (Hb : left <> [] -> bool_of_list left = true)
      by (destruct left; [contradiction | reflexivity]).
    poke_ways;
      rewrite Hpull in Hp_; inversion Hp_; subst;
      rewrite Hcb in Hc_; inversion Hc_; subst;
      cbn [existsb is_acknowledge is_pull negb orb pull_request acknowledge_request].
    - split; [congruence |]. split.
      + intros Hleft. rewrite (Hb Hleft) in Ha_. cbn in Ha_. congruence.
      + intros Hleft Hflag. rewrite (Hb Hleft), Hflag in Ha_. discriminate Ha_.
    - split; [congruence |]. split.
      + intros Hleft. rewrite (Hb Hleft) in Ha_. cbn in Ha_. congruence.
      + reflexivity. }
  split.
  { unfold _default_message_callback. split; [apply length_map | intros i; apply nth_error_map]. }
  split; [| split; [exact Hret | split]].
  - poke_ways; cbn [existsb is_acknowledge is_pull negb orb pull_request acknowledge_request];
      try discriminate.
    intros _. now apply andb_prop in Ha_.
  - intros Hdef.
    destruct (Hret (PyDicts (_default_message_callback msgs context)) msgs w1)
      as (_ & Hiff & Hcalls).
    { now rewrite (uses_default_handler _ Hdef). }
    split; [now apply Hiff | now apply Hcalls].
  - intros e left w2 Hcb. poke_ways;
      rewrite Hpull in Hp_; inversion Hp_; subst;
      rewrite Hcb in Hc_; inversion Hc_; subst.
    reflexivity.
Qed.

(** C10 (amended). When the pull or the transformation raises,
    [_return_value] keeps the value it had. When both return, [poke] has
    stored the value of the transformation in [_return_value], also when no
    message was pulled (the default transformation then gives the empty list)
    and also when the acknowledgement fails afterwards. A boolean returned by
    [poke] is the truth value of the pulled list as the transformation left
    it, whatever the transformation returned: of the list as pulled when the
    transformation is the default one. [poke] does return it unless the
    acknowledgement raises. *)
Theorem poke_stores_transformation context s :
  (forall e w1,
     pull_answer (self s) (flag_of (self s)) (world s) = (Raised e, w1) ->
     _return_value (self (snd (poke context s))) = _return_value (self s)) /\
  (forall msgs w1 e left w2,
     pull_answer (self s) (flag_of (self s)) (world s) = (Returned msgs, w1) ->
     handle_messages_of (self s) msgs context w1 = (Raised e, left, w2) ->
     _return_value (self (snd (poke context s))) = _return_value (self s)) /\
  (forall msgs w1 v left w2,
     pull_answer (self s) (flag_of (self s)) (world s) = (Returned msgs, w1) ->
     handle_messages_of (self s) msgs context w1 = (Returned v, left, w2) ->
     _return_value (self (snd (poke context s))) = v /\
     (forall b, fst (poke context s) = Returned b ->
                b = bool_of_list left /\ (b = true <-> left <> [])) /\
     (acknowledge_called context s = false ->
      fst (poke context s) = Returned (bool_of_list left)) /\
     (forall w3, acknowledge_answer (self s) left w2 = (Returned tt, w3) ->
                 fst (poke context s) = Returned (bool_of_list left)) /\
     (uses_default (self s) = true ->
      left = msgs /\ v = PyDicts (map MessageToDict msgs) /\
      (msgs = [] -> v = PyDicts []))).
Proof.
  split; [| split].
  - intros e w1 Hpull. poke_ways; rewrite Hpull in Hp_; inversion Hp_; subst; reflexivity.
  - intros msgs w1 e left w2 Hpull Hcb. poke_ways;
      rewrite Hpull in Hp_; inversion Hp_; subst;
      rewrite Hcb in Hc_; inversion Hc_; subst; reflexivity.
  - intros msgs w1 v left w2 Hpull Hcb.
    assert (Htruth : forall b, b = bool_of_list left -> (b = true <-> left <> [])).
    { intros b ->. destruct left; cbn; split; congruence. }
    assert (Hdefault : uses_default (self s) = true ->
              left = msgs /\ v = PyDicts (map MessageToDict msgs) /\
              (msgs = [] -> v = PyDicts [])).
    { intros Hdef. rewrite (uses_default_handler _ Hdef) in Hcb.
      unfold default_handler, _default_message_callback in Hcb.
      inversion Hcb; subst. repeat split. now intros ->. }
    poke_ways;
      rewrite Hpull in Hp_; inversion Hp_; subst;
      rewrite Hcb in Hc_; inversion Hc_; subst.
    + split; [reflexivity |]. split.
      { intros b Hb. inversion Hb; subst. split; [reflexivity | now apply Htruth]. }
      split; [reflexivity |]. split; [reflexivity | exact Hdefault].
    + destruct r_ as [[] | e];
        cbn [fst existsb is_acknowledge is_pull negb orb pull_request acknowledge_request].
      * split; [reflexivity |]. split.
        { intros b Hb. inversion Hb; subst. split; [reflexivity | now apply Htruth]. }
        split; [reflexivity |]. split; [reflexivity | exact Hdefault].
      * split; [reflexivity |]. split; [discriminate |].
        split; [discriminate |]. split; [congruence | exact Hdefault].
Qed.

(** C9 (amended). An acknowledgement made by [poke] carries the list [pull]
    returned, not the transformed result, with the contents the
    transformation left in it: the messages as pulled when the transformation
    is the default one, which leaves the list alone. It goes through the
    sensor's hook, to its project and subscription. By then the
    transformation has returned and its value is stored in [_return_value]
    (it stays stored if the acknowledgement raises), and the acknowledgement
    acts on the world the transformation left. With another
    [messages_callback] an acknowledgement goes to the same hook, project and
    subscription, and carries what that callback leaves of the same pulled
    list. *)
Theorem acknowledge_receives_pulled_messages context s hook p sub messages :
  In (acknowledge_call hook p sub messages) (issued context s) ->
  exists msgs w1 v w2,
    pull_answer (self s) (flag_of (self s)) (world s) = (Returned msgs, w1) /\
    handle_messages_of (self s) msgs context w1 = (Returned v, messages, w2) /\
    _return_value (self (snd (poke context s))) = v /\
    world (snd (poke context s)) = snd (acknowledge_answer (self s) messages w2) /\
    issued context s = [pull_request (self s) (flag_of (self s));
                        acknowledge_call hook p sub messages] /\
    acknowledge_call hook p sub messages = acknowledge_request (self s) messages /\
    (uses_default (self s) = true -> messages = msgs) /\
    (forall callback hook' p' sub' messages',
       In (acknowledge_call hook' p' sub' messages')
          (issued context (with_messages_callback callback s)) ->
       hook' = hook /\ p' = p /\ sub' = sub /\
       exists v' w2',
         handle_messages_of (self (with_messages_callback callback s)) msgs context w1
           = (Returned v', messages', w2')).
Proof.
  intros Hin.
  destruct (issued_acknowledge_inv _ _ _ _ _ _ Hin)
    as (msgs & w1 & v & w2 & Hpull & Hcb & Hv & Hw & Hissued & Heq & _ & _).
  exists msgs, w1, v, w2.
  do 6 (split; [assumption |]). split.
  - intros Hdef. rewrite (uses_default_handler _ Hdef) in Hcb.
    unfold default_handler in Hcb. now inversion Hcb.
  - intros callback hook' p' sub' messages' Hin'.
    destruct (issued_acknowledge_inv _ _ _ _ _ _ Hin')
      as (msgs' & w1' & v' & w2' & Hpull' & Hcb' & _ & _ & _ & Heq' & _ & _).
    change (pull_answer (self (with_messages_callback callback s))
              (flag_of (self (with_messages_callback callback s)))
              (world (with_messages_callback callback s)))
      with (pull_answer (self s) (flag_of (self s)) (world s)) in Hpull'.
    rewrite Hpull in Hpull'. inversion Hpull'; subst.
    unfold acknowledge_request in Heq, Heq'. inversion Heq; inversion Heq'; subst.
    repeat split. now exists v', w2'.
Qed.

(** *** The sensing loop and [execute] *)








(** *** The constructor *)

(** C8. Given that the base-class constructor returns: a [project] that is
    neither [None] nor empty replaces [project_id], and one
    [DeprecationWarning] is issued; with [project] equal to [None] or to the
    empty string [project_id] is kept as passed and no warning is issued. *)
Theorem init_project_overrides_project_id
    (project_id_arg subscription_arg : string) (max_messages_arg : Z)
    (return_immediately_arg : option bool) (ack_messages_arg : bool)
    (gcp_conn_id_arg : string) (delegate_to_arg : option string)
    (project : option string)
    (messages_callback_arg : option (Callable ReceivedMessage JsonDict Object TaskContext World))
    (kwargs : Kwargs) (ws : list Warning) (b : Base) :
  BaseSensorOperator_init kwargs = Returned b ->
  exists (sensor : Sensor) ws',
    __init__ project_id_arg subscription_arg max_messages_arg return_immediately_arg
             ack_messages_arg gcp_conn_id_arg delegate_to_arg project
             messages_callback_arg kwargs ws = (Returned sensor, ws') /\
    (forall p, project = Some p -> p <> "" ->
       project_id sensor = p /\
       ws' = ws ++ [ {| category := "DeprecationWarning";
                        message := deprecation_message |} ]) /\
    (project = None \/ project = Some "" ->
       project_id sensor = project_id_arg /\ ws' = ws).
Proof.
  intros Hbase. unfold __init__, bind, warn, modify, ret.
  destruct project as [p |].
  - destruct (String.eqb_spec p "") as [-> | Hp]; rewrite Hbase; cbn.
    + eexists _, _. split; [reflexivity |]. split.
      * intros p Hsome Hne. inversion Hsome; subst. contradiction.
      * intros _. split; reflexivity.
    + eexists _, _. split; [reflexivity |]. split.
      * intros q Hsome _. inversion Hsome; subst. split; reflexivity.
      * intros [Hnone | Hempty]; [discriminate Hnone | inversion Hempty; subst; contradiction].
  - rewrite Hbase; cbn. eexists _, _. split; [reflexivity |]. split.
    + intros p Hsome. discriminate Hsome.
    + intros _. split; reflexivity.
Qed.

(** ** Further properties of the sensor *)

(** X1. Whatever its outcome, [poke] leaves every attribute of the sensor
    other than [_return_value] as it was. *)
Theorem poke_writes_only_return_value context s :
  base (self (snd (poke context s))) = base (self s) /\
  gcp_conn_id (self (snd (poke context s))) = gcp_conn_id (self s) /\
  delegate_to (self (snd (poke context s))) = delegate_to (self s) /\
  project_id (self (snd (poke context s))) = project_id (self s) /\
  subscription (self (snd (poke context s))) = subscription (self s) /\
  max_messages (self (snd (poke context s))) = max_messages (self s) /\
  return_immediately (self (snd (poke context s))) = return_immediately (self s) /\
  ack_messages (self (snd (poke context s))) = ack_messages (self s) /\
  messages_callback (self (snd (poke context s))) = messages_callback (self s).
Proof. poke_cases; repeat split. Qed.

(** X2. An exception raised by the transformation of the pulled messages is
    the outcome of [poke]: the sensor object, [_return_value] included, is as
    it was, the pull is the only hook call made, and the messages are not
    acknowledged. *)
Theorem poke_propagates_transformation_exception context s msgs w1 e left w2 :
  pull_answer (self s) (flag_of (self s)) (world s) = (Returned msgs, w1) ->
  handle_messages_of (self s) msgs context w1 = (Raised e, left, w2) ->
  poke context s =
    (Raised e,
     {| self := self s; world := w2;
        hook_calls := hook_calls s ++ [pull_request (self s) (flag_of (self s))] |}).
Proof.
  intros Hpull Hcb.
  rewrite (surjective_pairing (poke context s)).
  poke_ways;
    rewrite Hpull in Hp_; inversion Hp_; subst;
    rewrite Hcb in Hc_; inversion Hc_; subst; reflexivity.
Qed.

(** X3. [poke] raises nothing of its own: an exception that comes out of it
    was raised by the pull, by the transformation of the messages the pull
    returned, or by the acknowledgement of the list the transformation left,
    non-empty, with [ack_messages] set. *)
Theorem poke_exception_origin context s e :
  fst (poke context s) = Raised e ->
  (exists w1, pull_answer (self s) (flag_of (self s)) (world s) = (Raised e, w1)) \/
  (exists msgs w1 left w2,
     pull_answer (self s) (flag_of (self s)) (world s) = (Returned msgs, w1) /\
     handle_messages_of (self s) msgs context w1 = (Raised e, left, w2)) \/
  (exists msgs w1 v left w2 w3,
     pull_answer (self s) (flag_of (self s)) (world s) = (Returned msgs, w1) /\
     handle_messages_of (self s) msgs context w1 = (Returned v, left, w2) /\
     left <> [] /\ ack_messages (self s) = true /\
     acknowledge_answer (self s) left w2 = (Raised e, w3)).
Proof.
  poke_ways; intros H.
  - inversion H; subst. left. now exists w1_.
  - inversion H; subst. right; left. now exists msgs_, w1_, left_, w2_.
  - discriminate H.
  - destruct r_ as [u | e']; [discriminate H |]. inversion H; subst.
    right; right. exists msgs_, w1_, v_, left_, w2_, w3_.
    apply andb_prop in Ha_ as [Hb Hflag].
    repeat split; try assumption. intros ->. discriminate Hb.
Qed.

(** X4. When [poke] returns a boolean, the pull and the transformation have
    returned and the value of the transformation is stored. [False] means the
    pulled list, as the transformation left it, was empty, and the pull was
    the only hook call; [True] means it was not empty, and then it was
    acknowledged exactly when [ack_messages] is set. With the default
    transformation the list is left as pulled. *)
Theorem poke_boolean_inv context s b :
  fst (poke context s) = Returned b ->
  exists msgs w1 v left w2,
    pull_answer (self s) (flag_of (self s)) (world s) = (Returned msgs, w1) /\
    handle_messages_of (self s) msgs context w1 = (Returned v, left, w2) /\
    _return_value (self (snd (poke context s))) = v /\
    b = bool_of_list left /\
    (uses_default (self s) = true -> left = msgs) /\
    (b = false ->
     left = [] /\ issued context s = [pull_request (self s) (flag_of (self s))]) /\
    (b = true ->
     left <> [] /\ acknowledge_called context s = ack_messages (self s)).
Proof.
  assert (Hdefault : forall msgs w1 v left w2,
            handle_messages_of (self s) msgs context w1 = (Returned v, left, w2) ->
            uses_default (self s) = true -> left = msgs).
  { intros msgs w1 v left w2 Hcb Hdef. rewrite (uses_default_handler _ Hdef) in Hcb.
    unfold default_handler in Hcb. now inversion Hcb. }
  poke_ways; intros Hret; try discriminate Hret.
  - inversion Hret; subst. exists msgs_, w1_, v_, left_, w2_.
    split; [exact Hp_ |]. split; [exact Hc_ |]. split; [reflexivity |].
    split; [reflexivity |]. split; [now apply (Hdefault _ _ _ _ _ Hc_) |].
    destruct left_ as [| m left_]; cbn in Ha_ |- *.
    + split; [intros _; split; reflexivity | discriminate].
    + split; [discriminate | intros _; split; [discriminate | now rewrite Ha_]].
  - destruct r_ as [u | e]; [| discriminate Hret].
    inversion Hret; subst. exists msgs_, w1_, v_, left_, w2_.
    split; [exact Hp_ |]. split; [exact Hc_ |]. split; [reflexivity |].
    split; [reflexivity |]. split; [now apply (Hdefault _ _ _ _ _ Hc_) |].
    apply andb_prop in Ha_ as [Hb Hflag].
    destruct left_ as [| m left_]; [discriminate Hb |].
    cbn. split; [discriminate | intros _; split; [discriminate | now rewrite Hflag]].
Qed.

(** X5. A [poke] acknowledges at most once. When it does, the list is not
    empty, [ack_messages] is set, and the acknowledgement is the last of its
    two hook calls. *)
Theorem poke_acknowledges_at_most_once context s :
  length (filter is_acknowledge (issued context s)) <= 1 /\
  (forall hook p sub messages,
     In (acknowledge_call hook p sub messages) (issued context s) ->
     messages <> [] /\
     ack_messages (self s) = true /\
     issued context s = [pull_request (self s) (flag_of (self s));
                         acknowledge_call hook p sub messages]).
Proof.
  split.
  - poke_cases; cbn; lia.
  - intros hook p sub messages Hin.
    destruct (issued_acknowledge_inv _ _ _ _ _ _ Hin)
      as (msgs & w1 & v & w2 & _ & _ & _ & _ & Hissued & _ & Hne & Hflag).
    split; [exact Hne | split; [exact Hflag | exact Hissued]].
Qed.

(** X6. What a [poke] does is independent of the value an earlier [poke]
    left in [_return_value]: with any other stored value the outcome, the
    world and the hook calls are the same, and so is the whole final state as
    soon as [poke] returns. *)
Theorem poke_ignores_stored_value context s (v0 : value JsonDict Object) :
  fst (poke context {| self := set__return_value v0 (self s);
                       world := world s; hook_calls := hook_calls s |})
    = fst (poke context s) /\
  world (snd (poke context {| self := set__return_value v0 (self s);
                              world := world s; hook_calls := hook_calls s |}))
    = world (snd (poke context s)) /\
  hook_calls (snd (poke context {| self := set__return_value v0 (self s);
                                   world := world s; hook_calls := hook_calls s |}))
    = hook_calls (snd (poke context s)) /\
  (forall b, fst (poke context s) = Returned b ->
     snd (poke context {| self := set__return_value v0 (self s);
                          world := world s; hook_calls := hook_calls s |})
       = snd (poke context s)).
Proof.
  pose proof (poke_runs context {| self := set__return_value v0 (self s);
                                   world := world s; hook_calls := hook_calls s |}) as R0.
  pose proof (poke_runs context s) as R.
  destruct (poke context {| self := set__return_value v0 (self s);
                            world := world s; hook_calls := hook_calls s |}) as [r0 s0'].
  destruct (poke context s) as [r s'].
  cbn [fst snd] in *.
  destruct R0 as [? ? Hp0 | ? ? ? ? ? Hp0 Hc0 | ? ? ? ? ? Hp0 Hc0 Ha0
                  | ? ? ? ? ? ? ? Hp0 Hc0 Ha0 Hk0];
    destruct R as [? ? Hp | ? ? ? ? ? Hp Hc | ? ? ? ? ? Hp Hc Ha | ? ? ? ? ? ? ? Hp Hc Ha Hk];
    unfold pull_answer, acknowledge_answer, flag_of, hook_of, handle_messages_of,
      pull_request, acknowledge_request in *;
    cbn [self world hook_calls gcp_conn_id delegate_to project_id subscription
         max_messages return_immediately base ack_messages messages_callback
         set__return_value] in *;
    rewrite Hp in Hp0; inversion Hp0; subst;
    try (rewrite Hc in Hc0; inversion Hc0; subst);
    try (rewrite Ha in Ha0; discriminate Ha0);
    try (rewrite Hk in Hk0; inversion Hk0; subst);
    repeat split; try (intros b Hb; discriminate Hb).
Qed.

(** X8. When the base-class constructor raises, [__init__] raises the same
    exception and builds no sensor. The deprecation warning comes first: for a
    [project] that is neither [None] nor empty it has been issued all the
    same. *)
Theorem init_propagates_base_exception
    (project_id_arg subscription_arg : string) (max_messages_arg : Z)
    (return_immediately_arg : option bool) (ack_messages_arg : bool)
    (gcp_conn_id_arg : string) (delegate_to_arg : option string)
    (project : option string)
    (messages_callback_arg : option (Callable ReceivedMessage JsonDict Object TaskContext World))
    (kwargs : Kwargs) (ws : list Warning) (e : exn) :
  BaseSensorOperator_init kwargs = Raised e ->
  exists ws',
    __init__ project_id_arg subscription_arg max_messages_arg return_immediately_arg
             ack_messages_arg gcp_conn_id_arg delegate_to_arg project
             messages_callback_arg kwargs ws = (Raised e, ws') /\
    (forall p, project = Some p -> p <> "" ->
       ws' = ws ++ [ {| category := "DeprecationWarning";
                        message := deprecation_message |} ]) /\
    (project = None \/ project = Some "" -> ws' = ws).
Proof.
  intros Hbase. unfold __init__, bind, warn, modify, ret.
  destruct project as [p |].
  - destruct (String.eqb_spec p "") as [-> | Hp]; rewrite Hbase; cbn.
    + eexists. split; [reflexivity |]. split.
      * intros p Hsome Hne. inversion Hsome; subst. contradiction.
      * reflexivity.
    + eexists. split; [reflexivity |]. split.
      * reflexivity.
      * intros [Hnone | Hempty]; [discriminate Hnone | inversion Hempty; subst; contradiction].
  - rewrite Hbase; cbn. eexists. split; [reflexivity |]. split.
    + intros p Hsome. discriminate Hsome.
    + reflexivity.
Qed.

(** X9. The sensor [__init__] builds starts with [_return_value] equal to
    [None], and its [poke], in any world, pulls from the subscription and with
    the bound given to the constructor, through a hook made of [gcp_conn_id]
    and [delegate_to], in the project that [project] names when it is neither
    [None] nor empty and that [project_id] names otherwise; it acknowledges
    only if [ack_messages] was passed as [True]. *)
Theorem constructed_sensor_pulls_as_configured
    (project_id_arg subscription_arg : string) (max_messages_arg : Z)
    (return_immediately_arg : option bool) (ack_messages_arg : bool)
    (gcp_conn_id_arg : string) (delegate_to_arg : option string)
    (project : option string)
    (messages_callback_arg : option (Callable ReceivedMessage JsonDict Object TaskContext World))
    (kwargs : Kwargs) (ws : list Warning) (b : Base) :
  BaseSensorOperator_init kwargs = Returned b ->
  exists (sensor : Sensor) ws' target,
    __init__ project_id_arg subscription_arg max_messages_arg return_immediately_arg
             ack_messages_arg gcp_conn_id_arg delegate_to_arg project
             messages_callback_arg kwargs ws = (Returned sensor, ws') /\
    _return_value sensor = PyNone /\
    (forall p, project = Some p -> p <> "" -> target = p) /\
    (project = None \/ project = Some "" -> target = project_id_arg) /\
    forall context (w : World) (calls : list (HookCall ReceivedMessage)),
      filter is_pull (issued context {| self := sensor; world := w; hook_calls := calls |})
        = [pull_call {| hook_gcp_conn_id := gcp_conn_id_arg;
                        hook_delegate_to := delegate_to_arg |}
                     target subscription_arg max_messages_arg
                     (match return_immediately_arg with
                      | Some flag => flag
                      | None => reschedule b
                      end)] /\
      (acknowledge_called context {| self := sensor; world := w; hook_calls := calls |} = true ->
       ack_messages_arg = true).
Proof.
  intros Hbase.
  assert (Hack : forall (sensor : Sensor) context w calls,
             acknowledge_called context {| self := sensor; world := w; hook_calls := calls |}
               = true -> ack_messages sensor = true).
  { intros sensor context w calls. poke_cases; cbn; try discriminate.
    intros _. match goal with Ha : _ && _ = true |- _ => now apply andb_prop in Ha end. }
  unfold __init__, bind, warn, modify, ret.
  destruct project as [p |]; [destruct (String.eqb_spec p "") as [-> | Hp] |];
    rewrite Hbase; cbv beta iota;
    eexists _, _, _; (split; [reflexivity |]); (split; [reflexivity |]).
  - split; [intros p Hsome Hne; inversion Hsome; subst; contradiction |].
    split; [reflexivity |].
    intros context w calls. split; [apply issued_pulls | apply Hack].
  - split; [intros q Hsome _; inversion Hsome; subst; reflexivity |].
    split; [intros [Hnone | Hempty];
            [discriminate Hnone | inversion Hempty; subst; contradiction] |].
    intros context w calls. split; [apply issued_pulls | apply Hack].
  - split; [intros p Hsome; discriminate Hsome |].
    split; [reflexivity |].
    intros context w calls. split; [apply issued_pulls | apply Hack].
Qed.

(** X7. Without a [messages_callback], a [poke] whose pull returned stores
    the list of [MessageToDict] dictionaries of the pulled messages, and the
    outside world sees nothing but the pull and, when one is made, the
    acknowledgement: without acknowledgement [poke] returns with the world as
    the pull left it, otherwise the acknowledgement acts on that very world. *)
Theorem poke_default_transformation context s msgs w1 :
  messages_callback (self s) = None ->
  pull_answer (self s) (flag_of (self s)) (world s) = (Returned msgs, w1) ->
  _return_value (self (snd (poke context s))) = PyDicts (map MessageToDict msgs) /\
  (bool_of_list msgs && ack_messages (self s) = false ->
   fst (poke context s) = Returned (bool_of_list msgs) /\
   world (snd (poke context s)) = w1) /\
  (bool_of_list msgs && ack_messages (self s) = true ->
   world (snd (poke context s)) = snd (acknowledge_answer (self s) msgs w1)).
Proof.
  intros Hnone Hpull.
  assert (Hdefault : handle_messages_of (self s) msgs context w1
                     = (Returned (PyDicts (map MessageToDict msgs)), msgs, w1)).
  { unfold handle_messages_of. now rewrite Hnone. }
  poke_ways;
    rewrite Hpull in Hp_; inversion Hp_; subst;
    rewrite Hdefault in Hc_; inversion Hc_; subst.
  - split; [reflexivity |]. split; [intros _; split; reflexivity |].
    intros Hyes. rewrite Hyes in Ha_. discriminate Ha_.
  - split; [reflexivity |]. split; [intros Hno; rewrite Hno in Ha_; discriminate Ha_ |].
    intros _. now rewrite Hk_.
Qed.

(** *** The hook calls of a whole [execute] *)

(** One [poke], seen from the record of hook calls. *)
Lemma poke_run_calls context s r s' :
  poke_run context s r s' ->
  settings (self s') = settings (self s) /\
  exists tail,
    hook_calls s' = hook_calls s ++ pull_request (self s) (flag_of (self s)) :: tail /\
    (tail = [] \/ exists msgs, msgs <> [] /\ tail = [acknowledge_request (self s) msgs]) /\
    (r = Returned false -> tail = []).
Proof.
  intros R.
  destruct R as [? ? Hp | ? ? ? ? ? Hp Hc | ? ? ? ? ? Hp Hc Ha | ? ? ? lft ? res ? Hp Hc Ha Hk];
    (split; [reflexivity |]); cbn [hook_calls].
  1-3: exists []; repeat split; auto.
  apply andb_prop in Ha as [Hb _].
  exists [acknowledge_request (self s) lft]. split; [reflexivity |]. split.
  - right. exists lft. split; [intros ->; discriminate Hb | reflexivity].
  - destruct res; [rewrite Hb |]; discriminate.
Qed.

Lemma sensing_loop_hook_calls context fuel :
  forall s res s',
    BaseSensorOperator_execute poke fuel context s = Some (res, s') ->
    settings (self s') = settings (self s) /\
    exists n tail,
      hook_calls s' =
        hook_calls s ++ repeat (pull_request (self s) (flag_of (self s))) (S n) ++ tail /\
      n < fuel /\
      (tail = [] \/ exists msgs, msgs <> [] /\ tail = [acknowledge_request (self s) msgs]).
Proof.
  induction fuel as [| fuel IH]; intros s res s' H; [discriminate H |].
  cbn [BaseSensorOperator_execute] in H.
  pose proof (poke_run_calls (poke_runs context s)) as (Hset & tail & Hcalls & Htail & Hfalse).
  assert (Hone : forall s1, s1 = snd (poke context s) ->
            settings (self s1) = settings (self s) /\
            exists n tail,
              hook_calls s1 =
                hook_calls s ++ repeat (pull_request (self s) (flag_of (self s))) (S n) ++ tail /\
              n < S fuel /\
              (tail = [] \/
               exists msgs, msgs <> [] /\ tail = [acknowledge_request (self s) msgs])).
  { intros s1 ->. split; [exact Hset |]. exists 0, tail. repeat split; [exact Hcalls | lia | exact Htail]. }
  destruct (poke context s) as [[[|] | e] s1] eqn:Hpoke; cbn [fst snd] in *.
  - inversion H; subst. now apply Hone.
  - specialize (Hfalse eq_refl). subst tail.
    destruct (wait_for_next_poke (base (self s1)) (world s1)) as [[u | e] w].
    + destruct (IH _ _ _ H) as (Hset' & n & tail' & Hcalls' & Hn & Htail').
      cbn [self hook_calls set_world] in Hset', Hcalls', Htail'.
      assert (Hreq : pull_request (self s1) (flag_of (self s1))
                     = pull_request (self s) (flag_of (self s))).
      { change (pull_request (settings (self s1)) (flag_of (settings (self s1)))
                = pull_request (settings (self s)) (flag_of (settings (self s)))).
        now rewrite Hset. }
      assert (Hackreq : forall msgs, acknowledge_request (self s1) msgs
                                     = acknowledge_request (self s) msgs).
      { intros msgs.
        change (acknowledge_request (settings (self s1)) msgs
                = acknowledge_request (settings (self s)) msgs).
        now rewrite Hset. }
      split; [now rewrite Hset' |].
      exists (S n), tail'. split; [| split; [lia |]].
      * rewrite Hcalls', Hcalls, Hreq, <- app_assoc. reflexivity.
      * destruct Htail' as [-> | (msgs & Hne & ->)]; [now left |].
        right. exists msgs. now rewrite Hackreq.
    + inversion H; subst. cbn [self hook_calls set_world].
      split; [exact Hset |]. exists 0, []. repeat split; [exact Hcalls | lia | now left].
  - inversion H; subst. now apply Hone.
Qed.

(** X10. Whenever [execute] ends, by returning or by raising, the hook calls
    it has made are one pull request per [poke], all with the same arguments,
    followed by at most one acknowledgement, of a non-empty list: messages
    are acknowledged at most once, after the last pull, and the attributes
    other than [_return_value] are as at the start. The inherited sensing loop
    is the one described for [BaseSensorOperator_execute]: [poke] repeated
    until it returns [True]. *)
Theorem execute_hook_calls fuel context s r s' :
  execute fuel context s = Some (r, s') ->
  settings (self s') = settings (self s) /\
  exists n tail,
    hook_calls s' =
      hook_calls s ++ repeat (pull_request (self s) (flag_of (self s))) (S n) ++ tail /\
    n < fuel /\
    (tail = [] \/ exists msgs, msgs <> [] /\ tail = [acknowledge_request (self s) msgs]).
Proof.
  unfold execute. intros H.
  destruct (BaseSensorOperator_execute poke fuel context s) as [[[u | e] s1] |] eqn:Hloop;
    inversion H; subst; exact (sensing_loop_hook_calls _ _ _ Hloop).
Qed.

End SensorFacts.

(** ** The properties on the test double *)

Section Scenarios.
Import pubsub mock.

(** C2, as first stated, fails: the subscription is empty, the callback reads
    the first message of the list, and [poke] raises [IndexError] where
    [False] was promised. *)
Lemma poke_nothing_pulled_callback_raises :
  pull_answer (self nothing_to_pull_first_message)
              (flag_of (self nothing_to_pull_first_message))
              (world nothing_to_pull_first_message)
    = (Returned [], world_of [] false) /\
  fst (poke tt nothing_to_pull_first_message)
    = Raised (Exception "IndexError" "list index out of range") /\
  fst (poke tt nothing_to_pull_first_message) <> Returned false.
Proof. repeat split. discriminate. Qed.

(** It fails in a second way: the subscription is empty, the callback appends
    a message to the list it is given, and [poke] acknowledges that message
    and returns [True]. *)
Lemma poke_nothing_pulled_callback_appends :
  pull_answer (self nothing_to_pull_injected) (flag_of (self nothing_to_pull_injected))
              (world nothing_to_pull_injected)
    = (Returned [], world_of [] false) /\
  fst (poke tt nothing_to_pull_injected) = Returned true /\
  issued tt nothing_to_pull_injected
    = [pull_request (self nothing_to_pull_injected) false;
       acknowledge_request (self nothing_to_pull_injected) ["late"]].
Proof. repeat split. Qed.

Lemma poke_nothing_pulled_witness :
  pull_answer (self nothing_to_pull) (flag_of (self nothing_to_pull))
              (world nothing_to_pull)
    = (Returned [], world nothing_to_pull) /\
  ack_messages (self nothing_to_pull) = true /\
  acknowledge_called tt nothing_to_pull = false /\
  fst (poke tt nothing_to_pull) = Returned false.
Proof.
  assert (H : pull_answer (self nothing_to_pull) (flag_of (self nothing_to_pull))
                          (world nothing_to_pull)
              = (Returned [], world nothing_to_pull)) by reflexivity.
  destruct (poke_nothing_pulled tt nothing_to_pull H) as (Hdefault & _).
  destruct (Hdefault eq_refl) as (Hret & Hack & _).
  split; [exact H |]. split; [reflexivity |].
  split; [exact Hack | exact Hret].
Defined.

(** C3, as first stated, fails: one message is pulled and [ack_messages] is
    set, yet the callback raises and no acknowledgement is made. *)
Lemma poke_messages_pulled_callback_raises :
  pull_answer (self one_message_refused) (flag_of (self one_message_refused))
              (world one_message_refused)
    = (Returned ["a"], world_of [] false) /\
  ack_messages (self one_message_refused) = true /\
  acknowledge_called tt one_message_refused = false /\
  issued tt one_message_refused
    = [pull_request (self one_message_refused) false] /\
  ~ (acknowledge_called tt one_message_refused = true <->
     ack_messages (self one_message_refused) = true).
Proof.
  repeat split. intros [_ H]. specialize (H eq_refl). discriminate H.
Qed.

Lemma poke_messages_pulled_witness :
  (["a"; "b"] <> [] /\
   pull_answer (self two_messages) (flag_of (self two_messages)) (world two_messages)
     = (Returned ["a"; "b"], world_of [] false)) /\
  length (_default_message_callback (platform := mock_platform) ["a"; "b"] tt) = 2%nat /\
  acknowledge_called tt two_messages = true /\
  issued tt two_messages
    = [pull_request (self two_messages) false;
       acknowledge_request (self two_messages) ["a"; "b"]].
Proof.
  assert (Hne : ["a"; "b"] <> @nil string) by discriminate.
  assert (H : pull_answer (self two_messages) (flag_of (self two_messages))
                          (world two_messages)
              = (Returned ["a"; "b"], world_of [] false)) by reflexivity.
  destruct (poke_messages_pulled tt two_messages Hne H) as ((Hlen & _) & _ & _ & Hdefault & _).
  destruct (Hdefault eq_refl) as (Hack & Hcalls).
  split; [split; [exact Hne | exact H] |].
  split; [exact Hlen |]. split; [exact Hack | exact (Hcalls eq_refl)].
Defined.

Lemma poke_return_immediately_flag_witness :
  (return_immediately (self nothing_to_pull) = None /\
   reschedule (base (self nothing_to_pull)) = true /\
   filter is_pull (issued tt nothing_to_pull)
     = [pull_request (self nothing_to_pull) true]) /\
  (return_immediately (self two_messages) = None /\
   reschedule (base (self two_messages)) = false /\
   filter is_pull (issued tt two_messages)
     = [pull_request (self two_messages) false]) /\
  (return_immediately (self two_messages_counted) = Some true /\
   reschedule (base (self two_messages_counted)) = false /\
   filter is_pull (issued tt two_messages_counted)
     = [pull_request (self two_messages_counted) true]).
Proof.
  split; [| split]; (split; [reflexivity | split; [reflexivity |]]).
  - exact (proj1 (poke_return_immediately_flag tt nothing_to_pull) eq_refl).
  - exact (proj1 (poke_return_immediately_flag tt two_messages) eq_refl).
  - exact (proj2 (poke_return_immediately_flag tt two_messages_counted) true eq_refl).
Defined.

Lemma poke_propagates_hook_exceptions_witness :
  (pull_answer (self service_down) (flag_of (self service_down)) (world service_down)
     = (Raised (Exception "ServiceUnavailable" "503"), world_of [Returned ["a"]] false) /\
   fst (poke tt service_down) = Raised (Exception "ServiceUnavailable" "503") /\
   issued tt service_down = [pull_request (self service_down) false]) /\
  (acknowledge_answer (self acknowledge_forbidden) ["a"] (world_of [] true)
     = (Raised (Exception "Forbidden" "403 permission denied"), world_of [] true) /\
   fst (poke tt acknowledge_forbidden)
     = Raised (Exception "Forbidden" "403 permission denied") /\
   issued tt acknowledge_forbidden
     = [pull_request (self acknowledge_forbidden) false;
        acknowledge_request (self acknowledge_forbidden) ["a"]]).
Proof.
  split.
  - assert (H : pull_answer (self service_down) (flag_of (self service_down))
                            (world service_down)
                = (Raised (Exception "ServiceUnavailable" "503"),
                   world_of [Returned ["a"]] false)) by reflexivity.
    pose proof (proj1 (poke_propagates_hook_exceptions tt service_down) _ _ H) as Hpoke.
    split; [exact H |]. unfold issued. rewrite Hpoke. split; reflexivity.
  - assert (H : acknowledge_answer (self acknowledge_forbidden) ["a"] (world_of [] true)
                = (Raised (Exception "Forbidden" "403 permission denied"),
                   world_of [] true)) by reflexivity.
    pose proof (proj2 (poke_propagates_hook_exceptions tt acknowledge_forbidden)
                  ["a"] (world_of [] true) (PyDicts [[("ackId", "a")]]) ["a"]
                  (world_of [] true) _ _ eq_refl eq_refl eq_refl H) as Hpoke.
    split; [exact H |]. unfold issued. rewrite Hpoke. split; reflexivity.
Defined.



Lemma init_project_overrides_project_id_witness :
  BaseSensorOperator_init (Platform := mock_platform) "poke" = Returned false /\
  (exists sensor ws',
     __init__ "my-project" "my-subscription" 5 None false "google_cloud_default" None
              (Some "legacy-project") (@None MockCallable) "poke" []
       = (Returned sensor, ws') /\
     project_id sensor = "legacy-project" /\
     ws' = [ {| category := "DeprecationWarning"; message := deprecation_message |} ]) /\
  (exists sensor ws',
     __init__ "my-project" "my-subscription" 5 None false "google_cloud_default" None
              (Some "") (@None MockCallable) "poke" []
       = (Returned sensor, ws') /\
     project_id sensor = "my-project" /\ ws' = []).
Proof.
  assert (H : BaseSensorOperator_init (Platform := mock_platform) "poke" = Returned false)
    by reflexivity.
  split; [exact H |]. split.
  - destruct (init_project_overrides_project_id
                "my-project" "my-subscription" 5 None false "google_cloud_default" None
                (Some "legacy-project") (@None MockCallable) "poke" [] H)
      as (sensor & ws' & Hinit & Hset & _).
    exists sensor, ws'. split; [exact Hinit |].
    apply (Hset "legacy-project" eq_refl). discriminate.
  - destruct (init_project_overrides_project_id
                "my-project" "my-subscription" 5 None false "google_cloud_default" None
                (Some "") (@None MockCallable) "poke" [] H)
      as (sensor & ws' & Hinit & _ & Hkept).
    exists sensor, ws'. split; [exact Hinit |].
    apply Hkept. right. reflexivity.
Defined.

(** C9, as first stated, fails: two messages are pulled, the callback pops
    the last one off the list, and the acknowledgement carries the one
    message left, not the list as [pull] returned it. *)
Lemma acknowledge_receives_changed_list :
  pull_answer (self two_messages_popped) (flag_of (self two_messages_popped))
              (world two_messages_popped)
    = (Returned ["a"; "b"], world_of [] false) /\
  _return_value (self (snd (poke tt two_messages_popped))) = PyObject "b" /\
  issued tt two_messages_popped
    = [pull_request (self two_messages_popped) false;
       acknowledge_request (self two_messages_popped) ["a"]] /\
  acked (world (snd (poke tt two_messages_popped))) = ["a"].
Proof. repeat split. Qed.

Lemma acknowledge_receives_pulled_messages_witness :
  In (acknowledge_call (hook_of (self two_messages)) "my-project" "my-subscription"
                       ["a"; "b"])
     (issued tt two_messages) /\
  exists msgs w1,
    pull_answer (self two_messages) (flag_of (self two_messages)) (world two_messages)
      = (Returned msgs, w1) /\
    ["a"; "b"] = msgs /\
    issued tt two_messages
      = [pull_request (self two_messages) false;
         acknowledge_call (hook_of (self two_messages)) "my-project" "my-subscription"
                          ["a"; "b"]].
Proof.
  assert (Hin : In (acknowledge_call (hook_of (self two_messages)) "my-project"
                                     "my-subscription" ["a"; "b"])
                   (issued tt two_messages)) by (right; left; reflexivity).
  destruct (acknowledge_receives_pulled_messages tt two_messages _ _ _ _ Hin)
    as (msgs & w1 & v & w2 & Hpull & _ & _ & _ & Hissued & _ & Hsame & _).
  split; [exact Hin |]. exists msgs, w1.
  split; [exact Hpull |]. split; [exact (Hsame eq_refl) | exact Hissued].
Defined.

(** C10, as first stated, fails: two messages are pulled, the callback counts
    them and clears the list, and [poke] returns [False] although the pulled
    list was not empty; nothing is acknowledged. *)
Lemma poke_result_follows_changed_list :
  pull_answer (self two_messages_drained) (flag_of (self two_messages_drained))
              (world two_messages_drained)
    = (Returned ["a"; "b"], world_of [] false) /\
  bool_of_list ["a"; "b"] = true /\
  _return_value (self (snd (poke tt two_messages_drained))) = PyObject "**" /\
  fst (poke tt two_messages_drained) = Returned false /\
  acknowledge_called tt two_messages_drained = false.
Proof. repeat split. Qed.

Lemma poke_stores_transformation_witness :
  (pull_answer (self two_messages_counted) (flag_of (self two_messages_counted))
               (world two_messages_counted)
     = (Returned ["a"; "b"], world_of [] false) /\
   handle_messages_of (self two_messages_counted) ["a"; "b"] tt (world_of [] false)
     = (Returned (PyObject "**"), ["a"; "b"], world_of [] false)) /\
  _return_value (self (snd (poke tt two_messages_counted))) = PyObject "**" /\
  fst (poke tt two_messages_counted) = Returned true /\
  (pull_answer (self service_down) (flag_of (self service_down)) (world service_down)
     = (Raised (Exception "ServiceUnavailable" "503"), world_of [Returned ["a"]] false) /\
   _return_value (self (snd (poke tt service_down))) = PyNone).
Proof.
  assert (Hp : pull_answer (self two_messages_counted) (flag_of (self two_messages_counted))
                           (world two_messages_counted)
               = (Returned ["a"; "b"], world_of [] false)) by reflexivity.
  assert (Hc : handle_messages_of (self two_messages_counted) ["a"; "b"] tt (world_of [] false)
               = (Returned (PyObject "**"), ["a"; "b"], world_of [] false)) by reflexivity.
  assert (Hd : pull_answer (self service_down) (flag_of (self service_down))
                           (world service_down)
               = (Raised (Exception "ServiceUnavailable" "503"),
                  world_of [Returned ["a"]] false)) by reflexivity.
  destruct (poke_stores_transformation tt two_messages_counted) as (_ & _ & Hstore).
  destruct (Hstore _ _ _ _ _ Hp Hc) as (Hstored & _ & Hret & _).
  split; [split; [exact Hp | exact Hc] |].
  split; [exact Hstored |]. split; [apply Hret; reflexivity |].
  split; [exact Hd |].
  exact (proj1 (poke_stores_transformation tt service_down) _ _ Hd).
Defined.

(** *** The further properties on the test double *)

Lemma poke_propagates_transformation_exception_witness :
  (pull_answer (self one_message_refused) (flag_of (self one_message_refused))
               (world one_message_refused)
     = (Returned ["a"], world_of [] false) /\
   handle_messages_of (self one_message_refused) ["a"] tt (world_of [] false)
     = (Raised (Exception "ValueError" "unexpected payload"), ["a"], world_of [] false)) /\
  fst (poke tt one_message_refused) = Raised (Exception "ValueError" "unexpected payload") /\
  _return_value (self (snd (poke tt one_message_refused))) = PyNone /\
  acked (world (snd (poke tt one_message_refused))) = [].
Proof.
  assert (Hp : pull_answer (self one_message_refused) (flag_of (self one_message_refused))
                           (world one_message_refused)
               = (Returned ["a"], world_of [] false)) by reflexivity.
  assert (Hc : handle_messages_of (self one_message_refused) ["a"] tt (world_of [] false)
               = (Raised (Exception "ValueError" "unexpected payload"), ["a"],
                  world_of [] false))
    by reflexivity.
  split; [split; [exact Hp | exact Hc] |].
  rewrite (poke_propagates_transformation_exception tt one_message_refused Hp Hc).
  repeat split.
Defined.

Lemma poke_exception_origin_witness :
  fst (poke tt service_down) = Raised (Exception "ServiceUnavailable" "503") /\
  ((exists w1,
      pull_answer (self service_down) (flag_of (self service_down)) (world service_down)
        = (Raised (Exception "ServiceUnavailable" "503"), w1)) \/
   (exists msgs w1 left w2,
      pull_answer (self service_down) (flag_of (self service_down)) (world service_down)
        = (Returned msgs, w1) /\
      handle_messages_of (self service_down) msgs tt w1
        = (Raised (Exception "ServiceUnavailable" "503"), left, w2)) \/
   (exists msgs w1 v left w2 w3,
      pull_answer (self service_down) (flag_of (self service_down)) (world service_down)
        = (Returned msgs, w1) /\
      handle_messages_of (self service_down) msgs tt w1 = (Returned v, left, w2) /\
      left <> [] /\ ack_messages (self service_down) = true /\
      acknowledge_answer (self service_down) left w2
        = (Raised (Exception "ServiceUnavailable" "503"), w3))).
Proof.
  assert (H : fst (poke tt service_down) = Raised (Exception "ServiceUnavailable" "503"))
    by reflexivity.
  split; [exact H | exact (poke_exception_origin tt service_down H)].
Defined.

Lemma poke_boolean_inv_witness :
  (fst (poke tt nothing_to_pull) = Returned false /\
   issued tt nothing_to_pull
     = [pull_request (self nothing_to_pull) (flag_of (self nothing_to_pull))]) /\
  (fst (poke tt two_messages) = Returned true /\
   acknowledge_called tt two_messages = ack_messages (self two_messages)) /\
  (fst (poke tt two_messages_drained) = Returned false /\
   issued tt two_messages_drained
     = [pull_request (self two_messages_drained) (flag_of (self two_messages_drained))]).
Proof.
  assert (H1 : fst (poke tt nothing_to_pull) = Returned false) by reflexivity.
  assert (H2 : fst (poke tt two_messages) = Returned true) by reflexivity.
  assert (H3 : fst (poke tt two_messages_drained) = Returned false) by reflexivity.
  destruct (poke_boolean_inv tt nothing_to_pull H1)
    as (? & ? & ? & ? & ? & _ & _ & _ & _ & _ & Hfalse1 & _).
  destruct (poke_boolean_inv tt two_messages H2)
    as (? & ? & ? & ? & ? & _ & _ & _ & _ & _ & _ & Htrue2).
  destruct (poke_boolean_inv tt two_messages_drained H3)
    as (? & ? & ? & ? & ? & _ & _ & _ & _ & _ & Hfalse3 & _).
  split; [split; [exact H1 | exact (proj2 (Hfalse1 eq_refl))] |].
  split; [split; [exact H2 | exact (proj2 (Htrue2 eq_refl))] |].
  split; [exact H3 | exact (proj2 (Hfalse3 eq_refl))].
Defined.

Lemma poke_default_transformation_witness :
  (messages_callback (self two_messages) = None /\
   pull_answer (self two_messages) (flag_of (self two_messages)) (world two_messages)
     = (Returned ["a"; "b"], world_of [] false)) /\
  _return_value (self (snd (poke tt two_messages)))
    = PyDicts [[("ackId", "a")]; [("ackId", "b")]] /\
  world (snd (poke tt two_messages))
    = {| answers := []; acked := ["a"; "b"]; ack_refused := false |}.
Proof.
  assert (Hp : pull_answer (self two_messages) (flag_of (self two_messages))
                           (world two_messages)
               = (Returned ["a"; "b"], world_of [] false)) by reflexivity.
  destruct (poke_default_transformation tt two_messages eq_refl Hp) as (Hv & _ & Hw).
  split; [split; [reflexivity | exact Hp] |].
  split; [exact Hv | exact (Hw eq_refl)].
Defined.

Lemma init_propagates_base_exception_witness :
  BaseSensorOperator_init (Platform := mock_platform) "batch"
    = Raised (Exception "AirflowException"
                        "The mode must be one of ['poke', 'reschedule']") /\
  exists ws',
    __init__ "my-project" "my-subscription" 5 None false "google_cloud_default" None
             (Some "legacy-project") (@None MockCallable) "batch" []
      = (Raised (Exception "AirflowException"
                           "The mode must be one of ['poke', 'reschedule']"), ws') /\
    ws' = [ {| category := "DeprecationWarning"; message := deprecation_message |} ].
Proof.
  assert (H : BaseSensorOperator_init (Platform := mock_platform) "batch"
              = Raised (Exception "AirflowException"
                                  "The mode must be one of ['poke', 'reschedule']"))
    by reflexivity.
  split; [exact H |].
  destruct (init_propagates_base_exception
              "my-project" "my-subscription" 5 None false "google_cloud_default" None
              (Some "legacy-project") (@None MockCallable) "batch" [] H)
    as (ws' & Hinit & Hwarned & _).
  exists ws'. split; [exact Hinit |].
  apply (Hwarned "legacy-project" eq_refl). discriminate.
Defined.

Lemma constructed_sensor_pulls_as_configured_witness :
  BaseSensorOperator_init (Platform := mock_platform) "reschedule" = Returned true /\
  exists sensor ws',
    __init__ "my-project" "my-subscription" 3 None true "my-connection" None
             (Some "legacy-project") (@None MockCallable) "reschedule" []
      = (Returned sensor, ws') /\
    _return_value sensor = PyNone /\
    filter is_pull (issued tt (start sensor (world_of [Returned ["a"]] false)))
      = [pull_call {| hook_gcp_conn_id := "my-connection"; hook_delegate_to := None |}
                   "legacy-project" "my-subscription" 3 true].
Proof.
  assert (H : BaseSensorOperator_init (Platform := mock_platform) "reschedule"
              = Returned true) by reflexivity.
  split; [exact H |].
  destruct (constructed_sensor_pulls_as_configured
              "my-project" "my-subscription" 3 None true "my-connection" None
              (Some "legacy-project") (@None MockCallable) "reschedule" [] H)
    as (sensor & ws' & target & Hinit & Hnone & Hlegacy & _ & Hpoke).
  exists sensor, ws'. split; [exact Hinit |]. split; [exact Hnone |].
  assert (Htarget : target = "legacy-project")
    by (apply (Hlegacy "legacy-project" eq_refl); discriminate).
  subst target.
  exact (proj1 (Hpoke tt (world_of [Returned ["a"]] false) [])).
Defined.

Lemma execute_hook_calls_witness :
  execute 2 tt second_pull_delivers = Some (Returned (PyObject "*"), message_delivered) /\
  exists n tail,
    hook_calls message_delivered =
      hook_calls second_pull_delivers
      ++ repeat (pull_request (self second_pull_delivers)
                              (flag_of (self second_pull_delivers))) (S n)
      ++ tail /\
    n < 2 /\
    (tail = [] \/
     exists msgs, msgs <> [] /\ tail = [acknowledge_request (self second_pull_delivers) msgs]).
Proof.
  assert (H : execute 2 tt second_pull_delivers
              = Some (Returned (PyObject "*"), message_delivered))
    by (vm_compute; reflexivity).
  split; [exact H | exact (proj2 (execute_hook_calls 2 tt second_pull_delivers H))].
Defined.

End Scenarios.
